(** * create-icons.py: the icon generator of TeaTimePOS

    The script builds two square RGB canvases (192 and 512 pixels), paints a
    white disc and the letter T on each, writes them as PNG files and prints
    one line.  It is a straight-line sequence of calls into an imaging
    library, with one [try]/[except] per icon around the font lookup.

    The embedding follows the script call by call in a state-and-exception
    monad.  What the script cannot decide by itself (which font files load,
    which pixels a rasteriser covers, which paths can be written) is gathered
    in a record [Env]; the program is a function of that record and of the
    file system it starts from. *)

From Stdlib Require Import ZArith Lia Ascii String.
From stdpp Require Import base option list strings gmap fin_maps.

Local Open Scope string_scope.
Local Open Scope list_scope.
Local Open Scope Z_scope.

(** ** Colours *)

Definition Color : Type := Z * Z * Z.

Definition hex_digit (c : ascii) : option Z :=
  let n := Z.of_N (Ascii.N_of_ascii c) in
  if (48 <=? n) && (n <=? 57) then Some (n - 48)
  else if (97 <=? n) && (n <=? 102) then Some (n - 87)
  else if (65 <=? n) && (n <=? 70) then Some (n - 55)
  else None.

Definition hex_byte (hi lo : ascii) : option Z :=
  match hex_digit hi, hex_digit lo with
  | Some h, Some l => Some (16 * h + l)
  | _, _ => None
  end.

(** The colour names of the library's table that the script uses. *)
Definition colormap (name : string) : option Color :=
  if String.eqb name "white" then Some (255, 255, 255)
  else if String.eqb name "black" then Some (0, 0, 0)
  else None.

(** [ImageColor.getrgb], for a colour name and for the [#rrggbb] spelling. *)
Definition getrgb (color : string) : option Color :=
  match colormap color with
  | Some c => Some c
  | None =>
      match color with
      | String "#" (String r1 (String r0 (String g1 (String g0
          (String b1 (String b0 EmptyString)))))) =>
          match hex_byte r1 r0, hex_byte g1 g0, hex_byte b1 b0 with
          | Some r, Some g, Some b => Some (r, g, b)
          | _, _, _ => None
          end
      | _ => None
      end
  end.

(** Compositing of an ink over a pixel through an 8-bit coverage [m], one
    channel at a time: the library's rounded division by 255. *)
Definition div255 (a : Z) : Z :=
  let t := a + 128 in Z.shiftr (Z.shiftr t 8 + t) 8.

Definition blend (m old ink : Z) : Z :=
  div255 (old * (255 - m) + ink * m).

Definition blend_color (m : Z) (old ink : Color) : Color :=
  let '(r0, g0, b0) := old in
  let '(r1, g1, b1) := ink in
  (blend m r0 r1, blend m g0 g1, blend m b0 b1).

(** ** Images, fonts, files *)

Record Image := mkImage {
  im_mode : string;
  im_size : Z * Z;
  im_px : Z -> Z -> Color
}.

Definition in_bounds (im : Image) (x y : Z) : bool :=
  (0 <=? x) && (x <? fst (im_size im)) && (0 <=? y) && (y <? snd (im_size im)).

(** [Image.getpixel]: defined inside the canvas only. *)
Definition getpixel (im : Image) (xy : Z * Z) : option Color :=
  if in_bounds im (fst xy) (snd xy) then Some (im_px im (fst xy) (snd xy))
  else None.

Inductive Font :=
| FreeTypeFont (file : string) (size : Z)
| DefaultFont (size : option Z).

Inductive Format := PNG | JPEG | GIF | BMP.

Record File := mkFile {
  file_format : Format;
  file_image : Image
}.

(** What a path holds on disk: an encoded image file, or the empty or
    partial file that a write leaves behind when it fails after the file
    was opened. *)
Inductive Content :=
| Encoded (f : File)
| Truncated.

Definition BBox : Type := Z * Z * Z * Z.

(** ** The environment of a run *)

Record Env := mkEnv {
  (** does [ImageFont.truetype file size] find and open the font *)
  font_loads : string -> Z -> bool;
  (** the pixels that a filled ellipse with the given bounding box covers *)
  ellipse_mask : BBox -> Z -> Z -> bool;
  (** coverage (0..255) at pixel [x y] of a text drawn with a font, an
      anchor and a position *)
  text_mask : Font -> string -> string -> Z * Z -> Z -> Z -> Z;
  (** does a save to this path succeed; a property of the path, which the
      environment keeps from one run to the next *)
  can_write : string -> bool;
  (** when a save to this path fails: does it fail after the file was
      opened for writing (disk full, encoder error) rather than at the
      opening itself (missing directory, no permission) *)
  fails_after_open : string -> bool;
  (** does the library remove a file that a failing save had itself
      created (some of its versions do) *)
  removes_created : bool
}.

(** ** The state of a run *)

Inductive PyExn := OSError | ValueError | ReferenceError.

(** The library calls a run makes, in order. *)
Inductive Call :=
| CallNew (mode : string) (size : Z * Z) (color : string)
| CallDraw (im : nat)
| CallEllipse (im : nat) (xy : BBox) (fill : string)
| CallTruetype (file : string) (size : Z)
| CallLoadDefault (size : option Z)
| CallText (im : nat) (xy : Z * Z) (text fill : string) (font : Font)
    (anchor : string)
| CallSave (im : nat) (path : string)
| CallPrint (line : string).

Record World := mkWorld {
  heap : list Image;
  fs : gmap string Content;
  stdout : list string;
  calls : list Call
}.

Inductive Res (A : Type) :=
| Ret (a : A)
| Raise (e : PyExn).
Arguments Ret {A} a.
Arguments Raise {A} e.

Definition Py (A : Type) : Type := World -> Res A * World.

Definition py_ret {A} (a : A) : Py A := fun w => (Ret a, w).

Definition py_bind {A B} (m : Py A) (k : A -> Py B) : Py B :=
  fun w =>
    match m w with
    | (Ret a, w') => k a w'
    | (Raise e, w') => (Raise e, w')
    end.

Definition py_raise {A} (e : PyExn) : Py A := fun w => (Raise e, w).

(** [try: body except: handler], with the bare [except] of the script: any
    exception of the body is caught, and the handler starts from the state
    the body left. *)
Definition try_except {A} (body handler : Py A) : Py A :=
  fun w =>
    match body w with
    | (Ret a, w') => (Ret a, w')
    | (Raise _, w') => handler w'
    end.

Declare Scope py_scope.
Delimit Scope py_scope with py.
Notation "x <- m ;; k" := (py_bind m (fun x => k))
  (at level 100, m at next level, right associativity) : py_scope.
Notation "m ;;; k" := (py_bind m (fun _ => k))
  (at level 100, right associativity) : py_scope.

Definition log (c : Call) : Py unit :=
  fun w => (Ret tt, mkWorld (heap w) (fs w) (stdout w) (calls w ++ [c])).

Definition set_heap (h : list Image) : Py unit :=
  fun w => (Ret tt, mkWorld h (fs w) (stdout w) (calls w)).

Definition set_fs (f : gmap string Content) : Py unit :=
  fun w => (Ret tt, mkWorld (heap w) f (stdout w) (calls w)).

Definition get_world : Py World := fun w => (Ret w, w).

Definition deref (im : nat) : Py Image :=
  fun w =>
    match heap w !! im with
    | Some i => (Ret i, w)
    | None => (Raise ReferenceError, w)
    end.

Definition parse_color (color : string) : Py Color :=
  match getrgb color with
  | Some c => py_ret c
  | None => py_raise ValueError
  end.

(** ** The library calls of the script *)

(** File names: the extension picks the encoder, as [Image.save] does when
    no format is given. *)
Fixpoint has_slash (s : string) : bool :=
  match s with
  | EmptyString => false
  | String c s' => Ascii.eqb c "/" || has_slash s'
  end.

Fixpoint splitext (s : string) : string :=
  match s with
  | EmptyString => EmptyString
  | String c s' =>
      match splitext s' with
      | EmptyString =>
          if Ascii.eqb c "." && negb (has_slash s') then s else EmptyString
      | e => e
      end
  end.

Definition extension_format (ext : string) : option Format :=
  if String.eqb ext ".png" then Some PNG
  else if String.eqb ext ".jpg" then Some JPEG
  else if String.eqb ext ".jpeg" then Some JPEG
  else if String.eqb ext ".gif" then Some GIF
  else if String.eqb ext ".bmp" then Some BMP
  else None.

(** What a failing save leaves on disk.  A save opens its path for writing,
    which creates the file or empties the one that is there, and then
    encodes into it.  When it fails at the opening nothing changes; when it
    fails later the path is left with an empty or partial file, unless the
    save had created the file and the library removes it again. *)
Definition failed_save (env : Env) (path : string)
    (f : gmap string Content) : gmap string Content :=
  if fails_after_open env path then
    match f !! path with
    | None => if removes_created env then f else <[path := Truncated]> f
    | Some _ => <[path := Truncated]> f
    end
  else f.

(** A drawing context holds a reference to its image: what it draws lands
    in the image itself. *)
Record Draw := mkDraw { draw_im : nat }.

Section Library.

Context (env : Env).

Local Open Scope py_scope.

Definition fill_ellipse (i : Image) (xy : BBox) (ink : Color) : Image :=
  mkImage (im_mode i) (im_size i)
    (fun x y => if ellipse_mask env xy x y then ink else im_px i x y).

Definition paint_text (i : Image) (xy : Z * Z) (text : string) (ink : Color)
    (font : Font) (anchor : string) : Image :=
  mkImage (im_mode i) (im_size i)
    (fun x y =>
       blend_color (text_mask env font text anchor xy x y) (im_px i x y) ink).

(** [Image.new(mode, size, color)] *)
Definition Image_new (mode : string) (size : Z * Z) (color : string)
    : Py nat :=
  log (CallNew mode size color) ;;;
  c <- parse_color color ;;
  w <- get_world ;;
  set_heap (heap w ++ [mkImage mode size (fun _ _ => c)]) ;;;
  py_ret (List.length (heap w)).

(** [ImageDraw.Draw(im)] *)
Definition ImageDraw_Draw (im : nat) : Py Draw :=
  log (CallDraw im) ;;;
  _ <- deref im ;;
  py_ret (mkDraw im).

(** [draw.ellipse(xy, fill=...)] *)
Definition Draw_ellipse (d : Draw) (xy : BBox) (fill : string) : Py unit :=
  log (CallEllipse (draw_im d) xy fill) ;;;
  ink <- parse_color fill ;;
  i <- deref (draw_im d) ;;
  w <- get_world ;;
  set_heap (<[draw_im d := fill_ellipse i xy ink]> (heap w)).

(** [ImageFont.truetype(file, size)] *)
Definition ImageFont_truetype (file : string) (size : Z) : Py Font :=
  log (CallTruetype file size) ;;;
  if font_loads env file size then py_ret (FreeTypeFont file size)
  else py_raise OSError.

(** [ImageFont.load_default(size=None)] *)
Definition ImageFont_load_default (size : option Z) : Py Font :=
  log (CallLoadDefault size) ;;;
  py_ret (DefaultFont size).

(** [draw.text(xy, text, fill=..., font=..., anchor=...)] *)
Definition Draw_text (d : Draw) (xy : Z * Z) (text fill : string)
    (font : Font) (anchor : string) : Py unit :=
  log (CallText (draw_im d) xy text fill font anchor) ;;;
  ink <- parse_color fill ;;
  i <- deref (draw_im d) ;;
  w <- get_world ;;
  set_heap (<[draw_im d := paint_text i xy text ink font anchor]> (heap w)).

(** [im.save(path)]: the format comes from the extension, before the file
    is touched; a save that succeeds leaves the encoded image at the path,
    one that fails raises and leaves what [failed_save] says. *)
Definition Image_save (im : nat) (path : string) : Py unit :=
  log (CallSave im path) ;;;
  i <- deref im ;;
  match extension_format (splitext path) with
  | None => py_raise ValueError
  | Some fmt =>
      w <- get_world ;;
      if can_write env path then
        set_fs (<[path := Encoded (mkFile fmt i)]> (fs w))
      else
        set_fs (failed_save env path (fs w)) ;;;
        py_raise OSError
  end.

(** [print(line)] *)
Definition print (line : string) : Py unit :=
  log (CallPrint line) ;;;
  (fun w => (Ret tt, mkWorld (heap w) (fs w) (stdout w ++ [line]) (calls w))).

(** ** The script *)

Definition create_icons : Py unit :=
  (* Create 192x192 icon *)
  img192 <- Image_new "RGB" (192, 192) "#6b21a8" ;;
  draw192 <- ImageDraw_Draw img192 ;;
  Draw_ellipse draw192 (64, 64, 128, 128) "white" ;;;
  font <- try_except (ImageFont_truetype "arial.ttf" 60)
                     (ImageFont_load_default None) ;;
  Draw_text draw192 (96, 96) "T" "#6b21a8" font "mm" ;;;
  Image_save img192 "public/icons/icon-192x192.png" ;;;
  (* Create 512x512 icon *)
  img512 <- Image_new "RGB" (512, 512) "#6b21a8" ;;
  draw512 <- ImageDraw_Draw img512 ;;
  Draw_ellipse draw512 (170, 170, 342, 342) "white" ;;;
  font <- try_except (ImageFont_truetype "arial.ttf" 160)
                     (ImageFont_load_default None) ;;
  Draw_text draw512 (256, 256) "T" "#6b21a8" font "mm" ;;;
  Image_save img512 "public/icons/icon-512x512.png" ;;;
  print "Icons created successfully!".

(** A run starts in a fresh interpreter on the file system [fs0]. *)
Definition initial_world (fs0 : gmap string Content) : World :=
  mkWorld [] fs0 [] [].

Definition run (fs0 : gmap string Content) : Res unit * World :=
  create_icons (initial_world fs0).

End Library.

(** ** Names for what the script writes *)

Definition path192 : string := "public/icons/icon-192x192.png".
Definition path512 : string := "public/icons/icon-512x512.png".
Definition message : string := "Icons created successfully!".

Definition brand : Color := (107, 33, 168).
Definition white : Color := (255, 255, 255).

(** The font that reaches [draw.text] after the [try]/[except]. *)
Definition font_used (env : Env) (size : Z) : Font :=
  if font_loads env "arial.ttf" size then FreeTypeFont "arial.ttf" size
  else DefaultFont None.

Definition font_size (f : Font) : option Z :=
  match f with
  | FreeTypeFont _ s => Some s
  | DefaultFont s => s
  end.

Definition font_calls (env : Env) (size : Z) : list Call :=
  CallTruetype "arial.ttf" size ::
  (if font_loads env "arial.ttf" size then [] else [CallLoadDefault None]).

(** The two canvases as they are when they are saved. *)
Definition icon192 (env : Env) : Image :=
  paint_text env
    (fill_ellipse env (mkImage "RGB" (192, 192) (fun _ _ => brand))
       (64, 64, 128, 128) white)
    (96, 96) "T" brand (font_used env 60) "mm".

Definition icon512 (env : Env) : Image :=
  paint_text env
    (fill_ellipse env (mkImage "RGB" (512, 512) (fun _ _ => brand))
       (170, 170, 342, 342) white)
    (256, 256) "T" brand (font_used env 160) "mm".

(** The calls of the first and of the second block of the script. *)
Definition calls192 (env : Env) : list Call :=
  [CallNew "RGB" (192, 192) "#6b21a8"; CallDraw 0;
   CallEllipse 0 (64, 64, 128, 128) "white"]
  ++ font_calls env 60
  ++ [CallText 0 (96, 96) "T" "#6b21a8" (font_used env 60) "mm";
      CallSave 0 path192].

Definition calls512 (env : Env) : list Call :=
  [CallNew "RGB" (512, 512) "#6b21a8"; CallDraw 1;
   CallEllipse 1 (170, 170, 342, 342) "white"]
  ++ font_calls env 160
  ++ [CallText 1 (256, 256) "T" "#6b21a8" (font_used env 160) "mm";
      CallSave 1 path512].

(** The result of a run and the state it leaves. *)
Definition outcome (env : Env) (fs0 : gmap string Content) : Res unit :=
  fst (run env fs0).

Definition final (env : Env) (fs0 : gmap string Content) : World :=
  snd (run env fs0).

(** How many of the two output files a file system holds. *)
Definition output_files (f : gmap string Content) : nat :=
  List.length (filter (fun p => is_Some (f !! p)) [path192; path512]).

(** ** Geometry of a bounding box *)

Definition bbox_width (b : BBox) : Z := let '(x0, _, x1, _) := b in x1 - x0.
Definition bbox_height (b : BBox) : Z := let '(_, y0, _, y1) := b in y1 - y0.
Definition bbox_radius (b : BBox) : Z := bbox_width b / 2.

(** Twice the centre, to stay in the integers. *)
Definition bbox_centre2 (b : BBox) : Z * Z :=
  let '(x0, y0, x1, y1) := b in (x0 + x1, y0 + y1).

(** [v] is [S / k] up to a tenth of [S / k]. *)
Definition approx_frac (k S v : Z) : Prop := Z.abs (k * v - S) * 10 <= S.

(** A colour is white or close to it when no channel is more than 15 below
    full intensity. *)
Definition near_white (c : Color) : bool :=
  let '(r, g, b) := c in (240 <=? r) && (240 <=? g) && (240 <=? b).

(** ** Contracts of the rasterisers *)

(** An ellipse paints nothing outside its bounding box. *)
Definition ellipse_in_bbox (env : Env) : Prop :=
  forall x0 y0 x1 y1 x y,
    ellipse_mask env (x0, y0, x1, y1) x y = true ->
    x0 <= x <= x1 /\ y0 <= y <= y1.




(** ** Sample environments *)

Definition disc (b : BBox) (x y : Z) : bool :=
  let '(x0, y0, x1, y1) := b in
  let w := x1 - x0 in
  let h := y1 - y0 in
  (x0 <=? x) && (x <=? x1) && (y0 <=? y) && (y <=? y1) &&
  ((2 * x - (x0 + x1)) ^ 2 * h ^ 2 + (2 * y - (y0 + y1)) ^ 2 * w ^ 2
     <=? w ^ 2 * h ^ 2).

(** A sans-serif capital T: a stem through the anchor point and a bar on
    top, scaled with the font size; the default font is small. *)
Definition letter_T (font : Font) (text anchor : string) (xy : Z * Z)
    (x y : Z) : Z :=
  let s := match font_size font with Some s => s | None => 10 end in
  let dx := Z.abs (x - fst xy) in
  let dy := y - snd xy in
  if negb (String.eqb text "T") then 0
  else if (dx <=? s / 20) && (- (s / 3) <=? dy) && (dy <=? s / 3) then 255
  else if (dx <=? s / 3) && (- (s / 3) <=? dy) && (dy <=? - (s / 3) + s / 10)
  then 255
  else 0.

(** Fonts installed, output directory writable. *)
Definition desktop_env : Env :=
  mkEnv (fun _ _ => true) disc letter_T (fun _ => true) (fun _ => false)
    false.

(** No scalable font installed, output directory writable. *)
Definition bare_env : Env :=
  mkEnv (fun _ _ => false) disc letter_T (fun _ => true) (fun _ => false)
    false.

(** Fonts installed, nothing can be written: no file can be opened. *)
Definition readonly_env : Env :=
  mkEnv (fun _ _ => true) disc letter_T (fun _ => false) (fun _ => false)
    false.

(** Fonts installed, disk full: files open but no write completes, and
    what a failed save leaves is not removed. *)
Definition disk_full_env : Env :=
  mkEnv (fun _ _ => true) disc letter_T (fun _ => false) (fun _ => true)
    false.

(** Fonts installed, room for the first file only. *)
Definition first_only_env : Env :=
  mkEnv (fun _ _ => true) disc letter_T
    (fun p => String.eqb p "public/icons/icon-192x192.png")
    (fun _ => true) false.

(** Only the larger size of the scalable font is installed. *)
Definition large_font_env : Env :=
  mkEnv (fun _ size => 100 <=? size) disc letter_T (fun _ => true)
    (fun _ => false) false.

(** ** Symbolic execution of the script *)

Ltac run_script :=
  unfold run, create_icons, ImageFont_truetype, Image_save,
    icon192, icon512, calls192, calls512, font_calls,
    font_used, path192, path512, message, brand, white;
  repeat match goal with
         | H : font_loads _ _ _ = _ |- _ => rewrite H
         | H : can_write _ _ = _ |- _ => rewrite H
         end;
  cbv -[font_loads can_write map_insert text_mask ellipse_mask blend_color
        failed_save].

(** Case analysis on the two font lookups. *)
Ltac font_cases env :=
  unfold calls192, calls512, font_calls, font_used;
  destruct (font_loads env "arial.ttf" 60);
  destruct (font_loads env "arial.ttf" 160);
  simpl.

(** Membership of a call in an explicit list of calls, and its negation. *)
Ltac list_mem :=
  set_unfold; repeat first [ reflexivity | left; reflexivity | right ].

Ltac list_not_mem :=
  let H := fresh "H" in
  intros H; set_unfold in H; intuition discriminate.

Lemma run_both_written env fs0 :
  can_write env path192 = true ->
  can_write env path512 = true ->
  run env fs0 =
    (Ret tt,
     mkWorld [icon192 env; icon512 env]
       (<[path512 := Encoded (mkFile PNG (icon512 env))]>
          (<[path192 := Encoded (mkFile PNG (icon192 env))]> fs0))
       [message]
       (calls192 env ++ calls512 env ++ [CallPrint message])).
Proof.
  unfold path192, path512. intros W1 W2.
  destruct (font_loads env "arial.ttf" 60) eqn:F1;
    destruct (font_loads env "arial.ttf" 160) eqn:F2;
    run_script; reflexivity.
Qed.

Lemma run_first_write_fails env fs0 :
  can_write env path192 = false ->
  run env fs0 =
    (Raise OSError,
     mkWorld [icon192 env] (failed_save env path192 fs0) [] (calls192 env)).
Proof.
  unfold path192. intros W1.
  destruct (font_loads env "arial.ttf" 60) eqn:F1; run_script; reflexivity.
Qed.

Lemma run_second_write_fails env fs0 :
  can_write env path192 = true ->
  can_write env path512 = false ->
  run env fs0 =
    (Raise OSError,
     mkWorld [icon192 env; icon512 env]
       (failed_save env path512
          (<[path192 := Encoded (mkFile PNG (icon192 env))]> fs0))
       []
       (calls192 env ++ calls512 env)).
Proof.
  unfold path192, path512. intros W1 W2.
  destruct (font_loads env "arial.ttf" 60) eqn:F1;
    destruct (font_loads env "arial.ttf" 160) eqn:F2;
    run_script; reflexivity.
Qed.

(** The three ways a run can go, by what can be written. *)
Lemma run_cases env fs0 :
  (can_write env path192 = true /\ can_write env path512 = true /\
   outcome env fs0 = Ret tt /\
   final env fs0 =
     mkWorld [icon192 env; icon512 env]
       (<[path512 := Encoded (mkFile PNG (icon512 env))]>
          (<[path192 := Encoded (mkFile PNG (icon192 env))]> fs0))
       [message]
       (calls192 env ++ calls512 env ++ [CallPrint message]))
  \/ (can_write env path192 = false /\
      outcome env fs0 = Raise OSError /\
      final env fs0 =
        mkWorld [icon192 env] (failed_save env path192 fs0) []
          (calls192 env))
  \/ (can_write env path192 = true /\ can_write env path512 = false /\
      outcome env fs0 = Raise OSError /\
      final env fs0 =
        mkWorld [icon192 env; icon512 env]
          (failed_save env path512
             (<[path192 := Encoded (mkFile PNG (icon192 env))]> fs0))
          []
          (calls192 env ++ calls512 env)).
Proof.
  unfold outcome, final.
  destruct (can_write env path192) eqn:W1.
  - destruct (can_write env path512) eqn:W2.
    + left. rewrite (run_both_written env fs0 W1 W2). auto.
    + right; right. rewrite (run_second_write_fails env fs0 W1 W2). auto.
  - right; left. rewrite (run_first_write_fails env fs0 W1). auto.
Qed.

Lemma final_ok env fs0 :
  outcome env fs0 = Ret tt ->
  final env fs0 =
    mkWorld [icon192 env; icon512 env]
      (<[path512 := Encoded (mkFile PNG (icon512 env))]>
         (<[path192 := Encoded (mkFile PNG (icon192 env))]> fs0))
      [message]
      (calls192 env ++ calls512 env ++ [CallPrint message]).
Proof.
  destruct (run_cases env fs0) as [(_ & _ & _ & F) | [(_ & R & _) | (_ & _ & R & _)]];
    [auto | rewrite R; discriminate ..].
Qed.

Lemma paths_differ : path192 <> path512.
Proof. discriminate. Qed.

(** What a failing save does to the file system. *)
Lemma failed_save_other env p q f :
  q <> p -> failed_save env p f !! q = f !! q.
Proof.
  intros N. unfold failed_save.
  destruct (fails_after_open env p); [|reflexivity].
  destruct (f !! p); [|destruct (removes_created env)];
    try reflexivity; apply lookup_insert_ne; congruence.
Qed.

Lemma failed_save_at env p f :
  failed_save env p f !! p = f !! p \/
  failed_save env p f !! p = Some Truncated.
Proof.
  unfold failed_save.
  destruct (fails_after_open env p); [|left; reflexivity].
  destruct (f !! p) eqn:E; [|destruct (removes_created env)];
    try (right; apply lookup_insert_eq).
  left. exact E.
Qed.

Lemma failed_save_again env p f :
  failed_save env p (failed_save env p f) = failed_save env p f.
Proof.
  unfold failed_save.
  destruct (fails_after_open env p); [|reflexivity].
  destruct (f !! p) eqn:E.
  - rewrite lookup_insert_eq. apply insert_insert_eq.
  - destruct (removes_created env).
    + rewrite E. reflexivity.
    + rewrite lookup_insert_eq. apply insert_insert_eq.
Qed.

Lemma rerun_second_failure env (f : gmap string Content) a :
  failed_save env path512
    (<[path192 := a]> (failed_save env path512 (<[path192 := a]> f)))
  = failed_save env path512 (<[path192 := a]> f).
Proof.
  rewrite (insert_id (failed_save env path512 (<[path192 := a]> f))).
  - apply failed_save_again.
  - rewrite failed_save_other by exact paths_differ.
    apply lookup_insert_eq.
Qed.

Lemma lookup_192_ok env fs0 :
  outcome env fs0 = Ret tt ->
  fs (final env fs0) !! path192 = Some (Encoded (mkFile PNG (icon192 env))).
Proof.
  intros H. rewrite (final_ok env fs0 H). simpl.
  rewrite lookup_insert_ne by (intro E; symmetry in E; exact (paths_differ E)).
  apply lookup_insert_eq.
Qed.

Lemma lookup_512_ok env fs0 :
  outcome env fs0 = Ret tt ->
  fs (final env fs0) !! path512 = Some (Encoded (mkFile PNG (icon512 env))).
Proof.
  intros H. rewrite (final_ok env fs0 H). simpl. apply lookup_insert_eq.
Qed.

(** ** The output files *)

(** C1: after a successful run each of the two fixed paths holds a file; the
    file is a PNG encoding of an RGB canvas whose size is exactly 192 by 192,
    respectively 512 by 512. *)
Theorem outputs_are_png_of_size env fs0 :
  outcome env fs0 = Ret tt ->
  (exists f, fs (final env fs0) !! path192 = Some (Encoded f) /\
             file_format f = PNG /\ im_mode (file_image f) = "RGB" /\
             im_size (file_image f) = (192, 192)) /\
  (exists f, fs (final env fs0) !! path512 = Some (Encoded f) /\
             file_format f = PNG /\ im_mode (file_image f) = "RGB" /\
             im_size (file_image f) = (512, 512)).
Proof.
  intros H. split.
  - exists (mkFile PNG (icon192 env)). split; [now apply lookup_192_ok|].
    repeat split.
  - exists (mkFile PNG (icon512 env)). split; [now apply lookup_512_ok|].
    repeat split.
Qed.

Lemma outputs_are_png_of_size_witness :
  outcome desktop_env ∅ = Ret tt /\
  (exists f, fs (final desktop_env ∅) !! path192 = Some (Encoded f) /\
             file_format f = PNG /\ im_mode (file_image f) = "RGB" /\
             im_size (file_image f) = (192, 192)) /\
  (exists f, fs (final desktop_env ∅) !! path512 = Some (Encoded f) /\
             file_format f = PNG /\ im_mode (file_image f) = "RGB" /\
             im_size (file_image f) = (512, 512)).
Proof.
  split; [reflexivity|].
  apply (outputs_are_png_of_size desktop_env ∅). reflexivity.
Defined.

(** ** The calls of a run *)

Lemma print_not_in_blocks env :
  CallPrint message ∉ calls192 env ++ calls512 env.
Proof. font_cases env; list_not_mem. Qed.

Lemma save192_in_block env : CallSave 0 path192 ∈ calls192 env.
Proof. font_cases env; list_mem. Qed.

Lemma save512_in_block env : CallSave 1 path512 ∈ calls512 env.
Proof. font_cases env; list_mem. Qed.

Lemma block192_first_image env c :
  c ∈ calls192 env ->
  c <> CallNew "RGB" (512, 512) "#6b21a8" /\
  (forall im, c <> CallSave im path512) /\
  (forall xy fill, c <> CallEllipse 1 xy fill) /\
  (forall xy text fill font anchor, c <> CallText 1 xy text fill font anchor).
Proof.
  font_cases env; intros H; set_unfold in H;
    intuition (subst; discriminate).
Qed.

(** C7: the confirmation line is printed exactly once on a run whose two
    writes succeed and not at all on any other run; the call that prints it
    is the last call of the run and comes after both saves, whose files are
    then on disk. *)
Theorem message_once_after_both_writes env fs0 :
  stdout (final env fs0) =
    (if can_write env path192 && can_write env path512 then [message]
     else []) /\
  (outcome env fs0 = Ret tt <-> stdout (final env fs0) = [message]) /\
  (CallPrint message ∈ calls (final env fs0) <->
     stdout (final env fs0) = [message]) /\
  (CallPrint message ∈ calls (final env fs0) <->
     exists pre,
       calls (final env fs0) = pre ++ [CallPrint message] /\
       (CallPrint message ∉ pre) /\
       CallSave 0 path192 ∈ pre /\ CallSave 1 path512 ∈ pre /\
       is_Some (fs (final env fs0) !! path192) /\
       is_Some (fs (final env fs0) !! path512)).
Proof.
  destruct (run_cases env fs0)
    as [(W1 & W2 & R & F) | [(W1 & R & F) | (W1 & W2 & R & F)]];
    rewrite R, F; cbn [heap fs stdout calls]; rewrite ?W1, ?W2;
    cbn [andb].
  - split; [reflexivity|]. split; [tauto|]. split.
    + split; [reflexivity|]. intros _. list_mem.
    + split; [intros _ | intros _; list_mem].
      exists (calls192 env ++ calls512 env). rewrite <- app_assoc.
      split; [reflexivity|]. split; [apply print_not_in_blocks|].
      split; [apply elem_of_app; left; apply save192_in_block|].
      split; [apply elem_of_app; right; apply save512_in_block|].
      split.
      * rewrite lookup_insert_ne
          by (intro E; symmetry in E; exact (paths_differ E)).
        rewrite lookup_insert_eq. eauto.
      * rewrite lookup_insert_eq. eauto.
  - pose proof (print_not_in_blocks env) as N.
    assert (CallPrint message ∉ calls192 env) as N1
      by (intros H; apply N, elem_of_app; left; exact H).
    split; [reflexivity|]. split; [split; discriminate|].
    split; [split; [contradiction | discriminate]|].
    split; [contradiction|].
    intros (pre & E & _). exfalso. apply N1. rewrite E. list_mem.
  - pose proof (print_not_in_blocks env) as N.
    split; [reflexivity|]. split; [split; discriminate|].
    split; [split; [contradiction | discriminate]|].
    split; [contradiction|].
    intros (pre & E & _). exfalso. apply N. rewrite E. list_mem.
Qed.

(** ** Running again *)

Lemma insert_both_again (m : gmap string Content) (a b : Content) :
  <[path512 := b]> (<[path192 := a]> (<[path512 := b]> (<[path192 := a]> m)))
  = <[path512 := b]> (<[path192 := a]> m).
Proof.
  apply map_eq. intros k. rewrite !lookup_insert.
  repeat case_decide; reflexivity.
Qed.

(** C9: a second run in the same environment, started on the files the first
    run left, ends the same way and leaves the same files: the images at the
    two output paths, their sizes and every pixel of them are those of the
    first run. *)
Theorem second_run_same_output env fs0 :
  outcome env (fs (final env fs0)) = outcome env fs0 /\
  fs (final env (fs (final env fs0))) = fs (final env fs0) /\
  heap (final env (fs (final env fs0))) = heap (final env fs0) /\
  stdout (final env (fs (final env fs0))) = stdout (final env fs0) /\
  (forall p f1 f2,
     p = path192 \/ p = path512 ->
     fs (final env fs0) !! p = Some (Encoded f1) ->
     fs (final env (fs (final env fs0))) !! p = Some (Encoded f2) ->
     file_format f2 = file_format f1 /\
     im_size (file_image f2) = im_size (file_image f1) /\
     forall xy, getpixel (file_image f2) xy = getpixel (file_image f1) xy).
Proof.
  assert (fs (final env (fs (final env fs0))) = fs (final env fs0)) as E.
  { destruct (run_cases env fs0)
      as [(W1 & W2 & R & F) | [(W1 & R & F) | (W1 & W2 & R & F)]];
      destruct (run_cases env (fs (final env fs0)))
        as [(W1' & W2' & R' & F') | [(W1' & R' & F') | (W1' & W2' & R' & F')]];
      try congruence; rewrite F'; rewrite F; cbn [fs].
    - apply insert_both_again.
    - apply failed_save_again.
    - apply rerun_second_failure. }
  split; [|split; [exact E|split; [|split]]].
  - destruct (run_cases env fs0)
      as [(W1 & W2 & R & F) | [(W1 & R & F) | (W1 & W2 & R & F)]];
      destruct (run_cases env (fs (final env fs0)))
        as [(W1' & W2' & R' & F') | [(W1' & R' & F') | (W1' & W2' & R' & F')]];
      congruence.
  - destruct (run_cases env fs0)
      as [(W1 & W2 & R & F) | [(W1 & R & F) | (W1 & W2 & R & F)]];
      destruct (run_cases env (fs (final env fs0)))
        as [(W1' & W2' & R' & F') | [(W1' & R' & F') | (W1' & W2' & R' & F')]];
      try congruence; rewrite F'; rewrite F; reflexivity.
  - destruct (run_cases env fs0)
      as [(W1 & W2 & R & F) | [(W1 & R & F) | (W1 & W2 & R & F)]];
      destruct (run_cases env (fs (final env fs0)))
        as [(W1' & W2' & R' & F') | [(W1' & R' & F') | (W1' & W2' & R' & F')]];
      try congruence; rewrite F'; rewrite F; reflexivity.
  - intros p f1 f2 _ H1 H2. rewrite E in H2.
    assert (f2 = f1) as -> by congruence. auto.
Qed.

(** ** A failing first write *)

Lemma output_files_without_second (f : gmap string Content) :
  f !! path512 = None -> (output_files f <= 1)%nat.
Proof.
  intros N. unfold output_files. cbn [filter list_filter].
  rewrite N.
  repeat (case_decide || cbn [List.length filter list_filter]);
    try lia;
    match goal with H : is_Some None |- _ => destruct H; discriminate end.
Qed.

(** C8, as the script behaves: when the first save fails the run stops with
    that error; its last call is that save, and no call concerns the second
    canvas or the second path.  Every path but the first holds what it held
    before the run, and the first holds what it held or the empty file that
    the failed write left.  So zero or one output file is on disk afterwards
    when the second one was not there before. *)
Theorem first_write_failure_stops_run env fs0 :
  can_write env path192 = false ->
  outcome env fs0 = Raise OSError /\
  last (calls (final env fs0)) = Some (CallSave 0 path192) /\
  (forall c, c ∈ calls (final env fs0) ->
     c <> CallNew "RGB" (512, 512) "#6b21a8" /\
     (forall im, c <> CallSave im path512) /\
     (forall xy fill, c <> CallEllipse 1 xy fill) /\
     (forall xy text fill font anchor,
        c <> CallText 1 xy text fill font anchor)) /\
  List.length (heap (final env fs0)) = 1%nat /\
  (forall p, p <> path192 -> fs (final env fs0) !! p = fs0 !! p) /\
  (fs (final env fs0) !! path192 = fs0 !! path192 \/
   fs (final env fs0) !! path192 = Some Truncated) /\
  (fs0 !! path512 = None ->
   (output_files (fs (final env fs0)) <= 1)%nat).
Proof.
  intros W.
  destruct (run_cases env fs0)
    as [(W1 & W2 & R & F) | [(W1 & R & F) | (W1 & W2 & R & F)]];
    try congruence.
  rewrite R, F; cbn [heap fs stdout calls].
  split; [reflexivity|]. split.
  { font_cases env; reflexivity. }
  split; [apply block192_first_image|].
  split; [reflexivity|].
  split; [intros p N; now apply failed_save_other|].
  split; [apply failed_save_at|].
  intros N. apply output_files_without_second.
  rewrite failed_save_other by (intro E; symmetry in E; exact (paths_differ E)).
  exact N.
Qed.

Lemma first_write_failure_stops_run_witness :
  can_write disk_full_env path192 = false /\
  outcome disk_full_env
    {[path192 := Encoded (mkFile PNG (icon192 desktop_env))]}
  = Raise OSError /\
  (output_files
     (fs (final disk_full_env
            {[path192 := Encoded (mkFile PNG (icon192 desktop_env))]}))
   <= 1)%nat.
Proof.
  split; [reflexivity|].
  destruct (first_write_failure_stops_run disk_full_env
              {[path192 := Encoded (mkFile PNG (icon192 desktop_env))]}
              eq_refl) as (R & _ & _ & _ & _ & _ & C).
  split; [exact R|]. apply C. reflexivity.
Defined.

(** C8 as stated fails where an earlier run has left its files: a run whose
    first write fails leaves both of them on disk. *)
Lemma failed_write_leaves_two_files :
  can_write readonly_env path192 = false /\
  outcome readonly_env (fs (final desktop_env ∅)) = Raise OSError /\
  output_files (fs (final readonly_env (fs (final desktop_env ∅)))) = 2%nat.
Proof. repeat split; vm_compute; reflexivity. Qed.

(** The same happens with the second file alone left by an earlier run and a
    first write that fails after the file was opened: the empty first file
    and the earlier second file are both on disk. *)
Example empty_first_file_beside_earlier_second :
  can_write disk_full_env path192 = false /\
  output_files
    (fs (final disk_full_env
           {[path512 := Encoded (mkFile PNG (icon512 desktop_env))]}))
  = 2%nat.
Proof. split; vm_compute; reflexivity. Qed.

(** ** Fonts *)

Lemma calls_start env fs0 :
  exists rest, calls (final env fs0) = calls192 env ++ rest.
Proof.
  destruct (run_cases env fs0)
    as [(W1 & W2 & R & F) | [(W1 & R & F) | (W1 & W2 & R & F)]];
    rewrite F; cbn [calls].
  - eexists; reflexivity.
  - exists []. symmetry. apply app_nil_r.
  - eexists; reflexivity.
Qed.

Lemma calls_second env fs0 :
  can_write env path192 = true ->
  exists rest, calls (final env fs0) = calls192 env ++ calls512 env ++ rest.
Proof.
  intros W.
  destruct (run_cases env fs0)
    as [(W1 & W2 & R & F) | [(W1 & R & F) | (W1 & W2 & R & F)]];
    try congruence; rewrite F; cbn [calls].
  - eexists; reflexivity.
  - exists []. rewrite app_nil_r. reflexivity.
Qed.

Lemma text192_in_block env :
  CallText 0 (96, 96) "T" "#6b21a8" (font_used env 60) "mm" ∈ calls192 env.
Proof. font_cases env; list_mem. Qed.

Lemma text512_in_block env :
  CallText 1 (256, 256) "T" "#6b21a8" (font_used env 160) "mm"
    ∈ calls512 env.
Proof. font_cases env; list_mem. Qed.

Lemma in_first_block env fs0 c :
  c ∈ calls192 env -> c ∈ calls (final env fs0).
Proof.
  intros H. destruct (calls_start env fs0) as [rest ->].
  apply elem_of_app. left. exact H.
Qed.

Lemma in_second_block env fs0 c :
  can_write env path192 = true ->
  c ∈ calls512 env -> c ∈ calls (final env fs0).
Proof.
  intros W H. destruct (calls_second env fs0 W) as [rest ->].
  apply elem_of_app. right. apply elem_of_app. left. exact H.
Qed.

(** Every call of a run is a call of one of the two blocks or the final
    print. *)
Lemma calls_of_run env fs0 c :
  c ∈ calls (final env fs0) ->
  c ∈ calls192 env \/ c ∈ calls512 env \/ c = CallPrint message.
Proof.
  destruct (run_cases env fs0)
    as [(W1 & W2 & R & F) | [(W1 & R & F) | (W1 & W2 & R & F)]];
    rewrite F; cbn [calls]; rewrite ?elem_of_app, ?elem_of_cons, ?elem_of_nil;
    tauto.
Qed.

(** The canvases of a run: the first always, the second once the first
    file is written. *)
Lemma heap_first env fs0 : heap (final env fs0) !! 0%nat = Some (icon192 env).
Proof.
  destruct (run_cases env fs0)
    as [(W1 & W2 & R & F) | [(W1 & R & F) | (W1 & W2 & R & F)]];
    rewrite F; reflexivity.
Qed.

Lemma heap_second env fs0 :
  can_write env path192 = true ->
  heap (final env fs0) !! 1%nat = Some (icon512 env).
Proof.
  intros W.
  destruct (run_cases env fs0)
    as [(W1 & W2 & R & F) | [(W1 & R & F) | (W1 & W2 & R & F)]];
    try congruence; rewrite F; reflexivity.
Qed.

(** While the first file is not written, every call is one of the first
    block. *)
Lemma calls_without_first_write env fs0 c :
  can_write env path192 = false ->
  c ∈ calls (final env fs0) -> c ∈ calls192 env.
Proof.
  intros W.
  destruct (run_cases env fs0)
    as [(W1 & W2 & R & F) | [(W1 & R & F) | (W1 & W2 & R & F)]];
    try congruence; rewrite F; cbn [calls]; auto.
Qed.


Lemma ellipse_on_second_canvas env fs0 xy fill :
  CallEllipse 1 xy fill ∈ calls (final env fs0) ->
  can_write env path192 = true.
Proof.
  intros H. destruct (can_write env path192) eqn:W; [reflexivity|].
  apply (calls_without_first_write env fs0 _ W) in H.
  apply block192_first_image in H. destruct H as (_ & _ & N & _).
  exfalso. exact (N _ _ eq_refl).
Qed.

(** The text calls of the two blocks. *)
Lemma text_call_of_run env fs0 im xy text fill font anchor :
  CallText im xy text fill font anchor ∈ calls (final env fs0) ->
  text = "T" /\ fill = "#6b21a8" /\ anchor = "mm" /\
  ((im = 0%nat /\ xy = (96, 96) /\ font = font_used env 60) \/
   (im = 1%nat /\ xy = (256, 256) /\ font = font_used env 160)).
Proof.
  intros H. apply calls_of_run in H. revert H.
  font_cases env; intros H; set_unfold in H;
    intuition (try discriminate; simplify_eq; auto).
Qed.

Lemma load_default_call_of_run env fs0 size :
  CallLoadDefault size ∈ calls (final env fs0) -> size = None.
Proof.
  intros H. apply calls_of_run in H. revert H.
  font_cases env; intros H; set_unfold in H;
    intuition (try discriminate; simplify_eq; auto).
Qed.

(** C3: when the scalable font cannot be loaded, at one size or at both, and
    the two paths can be written, the run ends without an exception; the
    default font takes the place of the missing one in the text call, nothing
    but the confirmation line is printed, and both PNG files are on disk with
    their sizes. *)
Theorem font_fallback_completes env fs0 :
  font_loads env "arial.ttf" 60 = false \/
  font_loads env "arial.ttf" 160 = false ->
  can_write env path192 = true ->
  can_write env path512 = true ->
  outcome env fs0 = Ret tt /\
  stdout (final env fs0) = [message] /\
  (font_loads env "arial.ttf" 60 = false ->
   CallText 0 (96, 96) "T" "#6b21a8" (DefaultFont None) "mm"
     ∈ calls (final env fs0)) /\
  (font_loads env "arial.ttf" 160 = false ->
   CallText 1 (256, 256) "T" "#6b21a8" (DefaultFont None) "mm"
     ∈ calls (final env fs0)) /\
  (exists f, fs (final env fs0) !! path192 = Some (Encoded f) /\
             file_format f = PNG /\ im_size (file_image f) = (192, 192)) /\
  (exists f, fs (final env fs0) !! path512 = Some (Encoded f) /\
             file_format f = PNG /\ im_size (file_image f) = (512, 512)).
Proof.
  intros _ W1 W2.
  assert (outcome env fs0 = Ret tt) as R.
  { destruct (run_cases env fs0)
      as [(_ & _ & R & _) | [(W1' & _) | (_ & W2' & _)]];
      [exact R | congruence ..]. }
  split; [exact R|]. split; [rewrite (final_ok env fs0 R); reflexivity|].
  split.
  { intros F. apply in_first_block.
    pose proof (text192_in_block env) as T. unfold font_used in T.
    rewrite F in T. exact T. }
  split.
  { intros F. apply in_second_block; [exact W1|].
    pose proof (text512_in_block env) as T. unfold font_used in T.
    rewrite F in T. exact T. }
  split.
  - exists (mkFile PNG (icon192 env)). split; [now apply lookup_192_ok|].
    split; reflexivity.
  - exists (mkFile PNG (icon512 env)). split; [now apply lookup_512_ok|].
    split; reflexivity.
Qed.

Lemma font_fallback_completes_witness :
  outcome bare_env ∅ = Ret tt /\
  stdout (final bare_env ∅) = [message] /\
  CallText 0 (96, 96) "T" "#6b21a8" (DefaultFont None) "mm"
    ∈ calls (final bare_env ∅).
Proof.
  destruct (font_fallback_completes bare_env ∅ (or_introl eq_refl)
              eq_refl eq_refl) as (R & S & T & _).
  split; [exact R|]. split; [exact S|]. apply T. reflexivity.
Defined.

(** C10: on a run where the scalable font does not load, the font handed to
    the text call is the default font asked for without a size: the
    requested 60 (or 160) is nowhere in it, both canvases get the same font,
    and the glyph pixels are those of the default font. *)
Theorem fallback_font_has_no_size env fs0 :
  (font_loads env "arial.ttf" 60 = false ->
   CallLoadDefault None ∈ calls (final env fs0) /\
   (forall xy text fill font anchor,
      CallText 0 xy text fill font anchor ∈ calls (final env fs0) ->
      font = DefaultFont None /\ font_size font = None) /\
   CallText 0 (96, 96) "T" "#6b21a8" (DefaultFont None) "mm"
     ∈ calls (final env fs0) /\
   exists i,
     heap (final env fs0) !! 0%nat = Some i /\
     forall x y,
       im_px i x y =
         blend_color (text_mask env (DefaultFont None) "T" "mm" (96, 96) x y)
           (if ellipse_mask env (64, 64, 128, 128) x y then white else brand)
           brand) /\
  (font_loads env "arial.ttf" 160 = false ->
   can_write env path192 = true ->
   CallLoadDefault None ∈ calls (final env fs0) /\
   (forall xy text fill font anchor,
      CallText 1 xy text fill font anchor ∈ calls (final env fs0) ->
      font = DefaultFont None /\ font_size font = None) /\
   CallText 1 (256, 256) "T" "#6b21a8" (DefaultFont None) "mm"
     ∈ calls (final env fs0) /\
   exists i,
     heap (final env fs0) !! 1%nat = Some i /\
     forall x y,
       im_px i x y =
         blend_color
           (text_mask env (DefaultFont None) "T" "mm" (256, 256) x y)
           (if ellipse_mask env (170, 170, 342, 342) x y then white
            else brand)
           brand) /\
  (forall size, CallLoadDefault size ∈ calls (final env fs0) -> size = None).
Proof.
  split; [|split; [|apply load_default_call_of_run]].
  - intros F. split.
    { apply in_first_block. unfold calls192, font_calls. rewrite F. list_mem. }
    split.
    { intros xy text fill font anchor H.
      apply text_call_of_run in H.
      destruct H as (_ & _ & _ & [(_ & _ & ->) | (E & _)]); [|discriminate].
      unfold font_used. rewrite F. split; reflexivity. }
    split.
    { apply in_first_block.
      pose proof (text192_in_block env) as T. unfold font_used in T.
      rewrite F in T. exact T. }
    exists (icon192 env). split; [apply heap_first|].
    intros x y. unfold icon192, font_used. rewrite F. reflexivity.
  - intros F W. split.
    { apply in_second_block; [exact W|].
      unfold calls512, font_calls. rewrite F. list_mem. }
    split.
    { intros xy text fill font anchor H.
      apply text_call_of_run in H.
      destruct H as (_ & _ & _ & [(E & _) | (_ & _ & ->)]); [discriminate|].
      unfold font_used. rewrite F. split; reflexivity. }
    split.
    { apply in_second_block; [exact W|].
      pose proof (text512_in_block env) as T. unfold font_used in T.
      rewrite F in T. exact T. }
    exists (icon512 env). split; [now apply heap_second|].
    intros x y. unfold icon512, font_used. rewrite F. reflexivity.
Qed.

Lemma fallback_font_has_no_size_witness :
  CallLoadDefault None ∈ calls (final bare_env ∅) /\
  CallText 0 (96, 96) "T" "#6b21a8" (DefaultFont None) "mm"
    ∈ calls (final bare_env ∅).
Proof.
  destruct (fallback_font_has_no_size bare_env ∅) as (H & _).
  destruct (H eq_refl) as (L & _ & T & _).
  split; assumption.
Defined.

(** ** The glyph *)








(** ** The disc *)

Lemma ellipse192_in_block env :
  CallEllipse 0 (64, 64, 128, 128) "white" ∈ calls192 env.
Proof. font_cases env; list_mem. Qed.

Lemma ellipse512_in_block env :
  CallEllipse 1 (170, 170, 342, 342) "white" ∈ calls512 env.
Proof. font_cases env; list_mem. Qed.

Lemma ellipse_call_of_run env fs0 im xy fill :
  CallEllipse im xy fill ∈ calls (final env fs0) ->
  fill = "white" /\
  ((im = 0%nat /\ xy = (64, 64, 128, 128)) \/
   (im = 1%nat /\ xy = (170, 170, 342, 342))).
Proof.
  intros H. apply calls_of_run in H. revert H.
  font_cases env; intros H; set_unfold in H;
    intuition (try discriminate; simplify_eq; auto).
Qed.

(** C5, as the script behaves: each ellipse call fills with white a box
    centred on its canvas, with the exact bounds [64,64]-[128,128] on the
    192 canvas and [170,170]-[342,342] on the 512 canvas; the box is as wide
    as it is high, its diameter is about a third of the canvas size and its
    radius about a sixth (not a third). *)
Theorem ellipse_boxes env fs0 :
  CallEllipse 0 (64, 64, 128, 128) "white" ∈ calls (final env fs0) /\
  (can_write env path192 = true ->
   CallEllipse 1 (170, 170, 342, 342) "white" ∈ calls (final env fs0)) /\
  (forall im xy fill,
     CallEllipse im xy fill ∈ calls (final env fs0) ->
     getrgb fill = Some (255, 255, 255) /\
     exists i S,
       heap (final env fs0) !! im = Some i /\
       im_size i = (S, S) /\
       ((S = 192 /\ xy = (64, 64, 128, 128)) \/
        (S = 512 /\ xy = (170, 170, 342, 342))) /\
       bbox_centre2 xy = (S, S) /\
       bbox_width xy = bbox_height xy /\
       approx_frac 3 S (bbox_width xy) /\
       approx_frac 6 S (bbox_radius xy) /\
       ~ approx_frac 3 S (bbox_radius xy)).
Proof.
  split; [apply in_first_block, ellipse192_in_block|].
  split;
    [intros W; apply in_second_block; [exact W | apply ellipse512_in_block]|].
  intros im xy fill H.
  pose proof (ellipse_call_of_run env fs0 _ _ _ H)
    as (-> & [(-> & ->) | (-> & ->)]).
  - split; [reflexivity|].
    exists (icon192 env), 192. split; [apply heap_first|].
    split; [reflexivity|]. split; [left; split; reflexivity|].
    unfold approx_frac, bbox_radius, bbox_width, bbox_height, bbox_centre2.
    repeat split; try reflexivity; try (vm_compute; discriminate);
      vm_compute; intros L; apply L; reflexivity.
  - pose proof (ellipse_on_second_canvas env fs0 _ _ H) as W.
    split; [reflexivity|].
    exists (icon512 env), 512. split; [now apply heap_second|].
    split; [reflexivity|]. split; [right; split; reflexivity|].
    unfold approx_frac, bbox_radius, bbox_width, bbox_height, bbox_centre2.
    repeat split; try reflexivity; try (vm_compute; discriminate);
      vm_compute; intros L; apply L; reflexivity.
Qed.

Lemma ellipse_boxes_witness :
  CallEllipse 1 (170, 170, 342, 342) "white" ∈ calls (final desktop_env ∅).
Proof.
  destruct (ellipse_boxes desktop_env ∅) as (_ & E & _).
  exact (E eq_refl).
Defined.

(** C5 as stated fails on the radius: on the 192 canvas the radius of the
    box is 32, a sixth of the canvas size, where a third would be 64. *)
Lemma ellipse_radius_is_a_sixth :
  CallEllipse 0 (64, 64, 128, 128) "white" ∈ calls (final desktop_env ∅) /\
  bbox_radius (64, 64, 128, 128) = 32 /\
  192 / 3 = 64 /\
  ~ approx_frac 3 192 (bbox_radius (64, 64, 128, 128)).
Proof.
  split; [vm_compute; list_mem|]. split; [reflexivity|].
  split; [reflexivity|]. vm_compute. intros L. apply L. reflexivity.
Qed.

(** ** Pixels of the written images *)

Lemma getpixel_inside im x y :
  0 <= x < fst (im_size im) ->
  0 <= y < snd (im_size im) ->
  getpixel im (x, y) = Some (im_px im x y).
Proof.
  intros Hx Hy. unfold getpixel, in_bounds. cbn [fst snd].
  destruct (Z.leb_spec 0 x); [|lia].
  destruct (Z.ltb_spec x (fst (im_size im))); [|lia].
  destruct (Z.leb_spec 0 y); [|lia].
  destruct (Z.ltb_spec y (snd (im_size im))); [|lia].
  reflexivity.
Qed.

Lemma disc_in_bbox : ellipse_in_bbox desktop_env.
Proof.
  intros x0 y0 x1 y1 x y H. cbn [ellipse_mask desktop_env] in H.
  unfold disc in H.
  repeat (apply andb_prop in H; destruct H as [H ?]).
  lia.
Qed.

Lemma px192 env x y :
  im_px (icon192 env) x y =
    blend_color (text_mask env (font_used env 60) "T" "mm" (96, 96) x y)
      (if ellipse_mask env (64, 64, 128, 128) x y then white else brand)
      brand.
Proof. reflexivity. Qed.

Lemma px512 env x y :
  im_px (icon512 env) x y =
    blend_color (text_mask env (font_used env 160) "T" "mm" (256, 256) x y)
      (if ellipse_mask env (170, 170, 342, 342) x y then white else brand)
      brand.
Proof. reflexivity. Qed.

(** C4: in both images of a successful run, every pixel that neither the
    ellipse nor the glyph touches has the colour #6b21a8, which is RGB
    (107, 33, 168); the corner (0,0) is such a pixel as soon as the ellipse
    stays in its bounding box and the glyph does not reach the corner. *)
Theorem background_is_brand env fs0 :
  outcome env fs0 = Ret tt ->
  getrgb "#6b21a8" = Some (107, 33, 168) /\
  (exists f,
     fs (final env fs0) !! path192 = Some (Encoded f) /\
     (forall x y,
        0 <= x < 192 -> 0 <= y < 192 ->
        ellipse_mask env (64, 64, 128, 128) x y = false ->
        text_mask env (font_used env 60) "T" "mm" (96, 96) x y = 0 ->
        getpixel (file_image f) (x, y) = Some (107, 33, 168)) /\
     (ellipse_in_bbox env ->
      text_mask env (font_used env 60) "T" "mm" (96, 96) 0 0 = 0 ->
      getpixel (file_image f) (0, 0) = Some (107, 33, 168))) /\
  (exists f,
     fs (final env fs0) !! path512 = Some (Encoded f) /\
     (forall x y,
        0 <= x < 512 -> 0 <= y < 512 ->
        ellipse_mask env (170, 170, 342, 342) x y = false ->
        text_mask env (font_used env 160) "T" "mm" (256, 256) x y = 0 ->
        getpixel (file_image f) (x, y) = Some (107, 33, 168)) /\
     (ellipse_in_bbox env ->
      text_mask env (font_used env 160) "T" "mm" (256, 256) 0 0 = 0 ->
      getpixel (file_image f) (0, 0) = Some (107, 33, 168))).
Proof.
  intros R. split; [reflexivity|]. split.
  - exists (mkFile PNG (icon192 env)). split; [now apply lookup_192_ok|].
    assert (forall x y,
              0 <= x < 192 -> 0 <= y < 192 ->
              ellipse_mask env (64, 64, 128, 128) x y = false ->
              text_mask env (font_used env 60) "T" "mm" (96, 96) x y = 0 ->
              getpixel (icon192 env) (x, y) = Some (107, 33, 168)) as G.
    { intros x y Hx Hy E T.
      rewrite getpixel_inside by assumption.
      rewrite px192, E, T. reflexivity. }
    split; [exact G|].
    intros B T. apply G; [lia | lia | | exact T].
    destruct (ellipse_mask env (64, 64, 128, 128) 0 0) eqn:E; [|reflexivity].
    apply B in E. lia.
  - exists (mkFile PNG (icon512 env)). split; [now apply lookup_512_ok|].
    assert (forall x y,
              0 <= x < 512 -> 0 <= y < 512 ->
              ellipse_mask env (170, 170, 342, 342) x y = false ->
              text_mask env (font_used env 160) "T" "mm" (256, 256) x y = 0 ->
              getpixel (icon512 env) (x, y) = Some (107, 33, 168)) as G.
    { intros x y Hx Hy E T.
      rewrite getpixel_inside by assumption.
      rewrite px512, E, T. reflexivity. }
    split; [exact G|].
    intros B T. apply G; [lia | lia | | exact T].
    destruct (ellipse_mask env (170, 170, 342, 342) 0 0) eqn:E; [|reflexivity].
    apply B in E. lia.
Qed.

Lemma background_is_brand_witness :
  outcome desktop_env ∅ = Ret tt /\
  exists f,
    fs (final desktop_env ∅) !! path192 = Some (Encoded f) /\
    getpixel (file_image f) (0, 0) = Some (107, 33, 168).
Proof.
  split; [reflexivity|].
  destruct (background_is_brand desktop_env ∅ eq_refl)
    as (_ & (f & L & _ & C) & _).
  exists f. split; [exact L|]. apply C; [exact disc_in_bbox | reflexivity].
Defined.

(** C2, as the script behaves: in both images of a successful run the centre
    pixel lies on the white disc (where the ellipse covers its own centre)
    and the glyph is composited over it in the colour #6b21a8: the pixel is
    white where the glyph leaves the centre uncovered and (107, 33, 168)
    where the glyph covers it fully. *)
Theorem centre_pixel_is_glyph_over_white env fs0 :
  outcome env fs0 = Ret tt ->
  ellipse_mask env (64, 64, 128, 128) 96 96 = true ->
  ellipse_mask env (170, 170, 342, 342) 256 256 = true ->
  blend_color 0 (255, 255, 255) (107, 33, 168) = (255, 255, 255) /\
  blend_color 255 (255, 255, 255) (107, 33, 168) = (107, 33, 168) /\
  (exists f,
     fs (final env fs0) !! path192 = Some (Encoded f) /\
     getpixel (file_image f) (96, 96) =
       Some (blend_color
               (text_mask env (font_used env 60) "T" "mm" (96, 96) 96 96)
               (255, 255, 255) (107, 33, 168))) /\
  (exists f,
     fs (final env fs0) !! path512 = Some (Encoded f) /\
     getpixel (file_image f) (256, 256) =
       Some (blend_color
               (text_mask env (font_used env 160) "T" "mm" (256, 256) 256 256)
               (255, 255, 255) (107, 33, 168))).
Proof.
  intros R E1 E2. split; [reflexivity|]. split; [reflexivity|]. split.
  - exists (mkFile PNG (icon192 env)). split; [now apply lookup_192_ok|].
    cbn [file_image]. rewrite getpixel_inside by (cbn; lia).
    rewrite px192, E1. reflexivity.
  - exists (mkFile PNG (icon512 env)). split; [now apply lookup_512_ok|].
    cbn [file_image]. rewrite getpixel_inside by (cbn; lia).
    rewrite px512, E2. reflexivity.
Qed.

Lemma centre_pixel_is_glyph_over_white_witness :
  outcome desktop_env ∅ = Ret tt /\
  exists f,
    fs (final desktop_env ∅) !! path512 = Some (Encoded f) /\
    getpixel (file_image f) (256, 256) = Some (107, 33, 168).
Proof.
  split; [reflexivity|].
  destruct (centre_pixel_is_glyph_over_white desktop_env ∅ eq_refl eq_refl
              eq_refl) as (_ & _ & _ & (f & L & P)).
  exists f. split; [exact L|]. rewrite P. reflexivity.
Defined.

(** C2 as stated fails with a font whose T has its stem through the anchor
    point: the centre pixel of the written image is (107, 33, 168), far from
    white. *)
Lemma centre_pixel_is_not_white :
  outcome desktop_env ∅ = Ret tt /\
  exists f,
    fs (final desktop_env ∅) !! path192 = Some (Encoded f) /\
    getpixel (file_image f) (96, 96) = Some (107, 33, 168) /\
    near_white (107, 33, 168) = false.
Proof.
  split; [reflexivity|].
  exists (mkFile PNG (icon192 desktop_env)).
  split; [apply lookup_192_ok; reflexivity|].
  split; reflexivity.
Qed.

(** ** Further properties of the script *)

(** X1: a run ends normally exactly when both output paths can be written,
    whatever the fonts and the files already on disk; every other run ends
    with the error of the failing save, never with another exception. *)
Theorem run_succeeds_iff_writable env fs0 :
  (outcome env fs0 = Ret tt <->
     can_write env path192 = true /\ can_write env path512 = true) /\
  (outcome env fs0 = Raise OSError <->
     can_write env path192 = false \/ can_write env path512 = false) /\
  (outcome env fs0 = Ret tt \/ outcome env fs0 = Raise OSError).
Proof.
  destruct (run_cases env fs0)
    as [(W1 & W2 & R & F) | [(W1 & R & F) | (W1 & W2 & R & F)]];
    rewrite R, ?W1, ?W2.
  - split; [tauto|]. split; [|left; reflexivity].
    split; [discriminate | intros [E | E]; discriminate].
  - split; [split; [discriminate | intros [E _]; discriminate]|].
    split; [|right; reflexivity]. split; [auto | reflexivity].
  - split; [split; [discriminate | intros [_ E]; discriminate]|].
    split; [|right; reflexivity]. split; [auto | reflexivity].
Qed.

(** X2: when the first file is written and the second save fails, the run
    stops at that save with its error and prints nothing; the first path
    holds the 192 by 192 PNG of the first canvas, and the second path holds
    what it held before the run or the empty file that the failed write
    left, never an image of this run. *)
Theorem second_write_failure_keeps_first_file env fs0 :
  can_write env path192 = true ->
  can_write env path512 = false ->
  outcome env fs0 = Raise OSError /\
  stdout (final env fs0) = [] /\
  last (calls (final env fs0)) = Some (CallSave 1 path512) /\
  (exists f,
     fs (final env fs0) !! path192 = Some (Encoded f) /\
     file_format f = PNG /\
     im_size (file_image f) = (192, 192) /\
     heap (final env fs0) !! 0%nat = Some (file_image f)) /\
  (fs (final env fs0) !! path512 = fs0 !! path512 \/
   fs (final env fs0) !! path512 = Some Truncated) /\
  (forall f,
     fs (final env fs0) !! path512 = Some (Encoded f) ->
     fs0 !! path512 = Some (Encoded f)).
Proof.
  intros W1' W2'.
  destruct (run_cases env fs0)
    as [(W1 & W2 & R & F) | [(W1 & R & F) | (W1 & W2 & R & F)]];
    try congruence.
  rewrite R, F; cbn [heap fs stdout calls].
  split; [reflexivity|]. split; [reflexivity|].
  split; [font_cases env; reflexivity|].
  split.
  { exists (mkFile PNG (icon192 env)).
    split; [|repeat split].
    rewrite failed_save_other by exact paths_differ.
    apply lookup_insert_eq. }
  assert (forall c : Content,
            <[path192 := c]> fs0 !! path512 = fs0 !! path512) as L.
  { intros c. apply lookup_insert_ne. exact paths_differ. }
  destruct (failed_save_at env path512
              (<[path192 := Encoded (mkFile PNG (icon192 env))]> fs0))
    as [E | E]; rewrite E, ?L.
  - split; [left; reflexivity | auto].
  - split; [right; reflexivity | discriminate].
Qed.

Lemma second_write_failure_keeps_first_file_witness :
  outcome first_only_env ∅ = Raise OSError /\
  stdout (final first_only_env ∅) = [] /\
  exists f,
    fs (final first_only_env ∅) !! path192 = Some (Encoded f) /\
    im_size (file_image f) = (192, 192).
Proof.
  destruct (second_write_failure_keeps_first_file first_only_env ∅
              eq_refl eq_refl) as (R & S & _ & (f & L & _ & Z & _) & _).
  split; [exact R|]. split; [exact S|]. exists f. split; assumption.
Defined.

(** X3: a run reads and writes no path but its two output paths: every
    other path holds after the run what it held before, however the run
    ends. *)
Theorem other_paths_untouched env fs0 p :
  p <> path192 ->
  p <> path512 ->
  fs (final env fs0) !! p = fs0 !! p.
Proof.
  intros N1 N2.
  destruct (run_cases env fs0)
    as [(W1 & W2 & R & F) | [(W1 & R & F) | (W1 & W2 & R & F)]];
    rewrite F; cbn [fs].
  - rewrite lookup_insert_ne by congruence.
    rewrite lookup_insert_ne by congruence. reflexivity.
  - now apply failed_save_other.
  - rewrite failed_save_other by exact N2.
    rewrite lookup_insert_ne by congruence. reflexivity.
Qed.

Lemma other_paths_untouched_witness :
  fs (final desktop_env (fs (final desktop_env ∅))) !! "public/manifest.json"
  = fs (final desktop_env ∅) !! "public/manifest.json".
Proof.
  apply (other_paths_untouched desktop_env (fs (final desktop_env ∅))
           "public/manifest.json"); discriminate.
Defined.

(** X5: the scalable font is looked up once per canvas that is reached, the
    second lookup whatever the first gave; the default font is loaded only
    after a lookup that failed, and always without a size. *)
Theorem default_font_only_after_failed_lookup env fs0 :
  CallTruetype "arial.ttf" 60 ∈ calls (final env fs0) /\
  (CallTruetype "arial.ttf" 160 ∈ calls (final env fs0) <->
     can_write env path192 = true) /\
  (forall size,
     CallLoadDefault size ∈ calls (final env fs0) <->
     size = None /\
     (font_loads env "arial.ttf" 60 = false \/
      (can_write env path192 = true /\
       font_loads env "arial.ttf" 160 = false))).
Proof.
  destruct (font_loads env "arial.ttf" 60) eqn:F1;
    destruct (font_loads env "arial.ttf" 160) eqn:F2;
    destruct (run_cases env fs0)
      as [(W1 & W2 & R & F) | [(W1 & R & F) | (W1 & W2 & R & F)]];
    rewrite F, W1; cbn [calls];
    unfold calls192, calls512, font_calls, font_used; rewrite ?F1, ?F2;
    cbn [app];
    (split; [solve [list_mem]|]);
    (split;
      [split;
        [first [intros _; reflexivity | list_not_mem]
        |intros E; first [discriminate E | solve [list_mem]]]|]);
    intros size; (split;
      [intros H; set_unfold in H;
       intuition (try discriminate; simplify_eq; auto)
      |intros (-> & [E | (E1 & E2)]); try discriminate; solve [list_mem]]).
Qed.

Lemma default_font_only_after_failed_lookup_witness :
  CallLoadDefault None ∈ calls (final large_font_env ∅) /\
  CallTruetype "arial.ttf" 160 ∈ calls (final large_font_env ∅).
Proof.
  destruct (default_font_only_after_failed_lookup large_font_env ∅)
    as (_ & T & L).
  split; [apply L; split; [reflexivity | left; reflexivity]|].
  apply T. reflexivity.
Defined.

Lemma blend_same_ink m : blend_color m brand brand = brand.
Proof.
  unfold blend_color, brand, blend.
  replace (107 * (255 - m) + 107 * m) with 27285 by lia.
  replace (33 * (255 - m) + 33 * m) with 8415 by lia.
  replace (168 * (255 - m) + 168 * m) with 42840 by lia.
  reflexivity.
Qed.

(** X6: the glyph is drawn in the colour of the background, so it shows on
    the disc only: in both images of a successful run every pixel outside
    the ellipse is (107, 33, 168), whatever the font draws there. *)
Theorem outside_disc_is_brand env fs0 :
  outcome env fs0 = Ret tt ->
  (exists f,
     fs (final env fs0) !! path192 = Some (Encoded f) /\
     forall x y,
       0 <= x < 192 -> 0 <= y < 192 ->
       ellipse_mask env (64, 64, 128, 128) x y = false ->
       getpixel (file_image f) (x, y) = Some (107, 33, 168)) /\
  (exists f,
     fs (final env fs0) !! path512 = Some (Encoded f) /\
     forall x y,
       0 <= x < 512 -> 0 <= y < 512 ->
       ellipse_mask env (170, 170, 342, 342) x y = false ->
       getpixel (file_image f) (x, y) = Some (107, 33, 168)).
Proof.
  intros R. split.
  - exists (mkFile PNG (icon192 env)). split; [now apply lookup_192_ok|].
    intros x y Hx Hy E. cbn [file_image].
    rewrite getpixel_inside by assumption.
    rewrite px192, E. f_equal. apply blend_same_ink.
  - exists (mkFile PNG (icon512 env)). split; [now apply lookup_512_ok|].
    intros x y Hx Hy E. cbn [file_image].
    rewrite getpixel_inside by assumption.
    rewrite px512, E. f_equal. apply blend_same_ink.
Qed.

Lemma outside_disc_is_brand_witness :
  outcome bare_env ∅ = Ret tt /\
  exists f,
    fs (final bare_env ∅) !! path512 = Some (Encoded f) /\
    getpixel (file_image f) (256, 100) = Some (107, 33, 168).
Proof.
  split; [reflexivity|].
  destruct (outside_disc_is_brand bare_env ∅ eq_refl) as (_ & (f & L & P)).
  exists f. split; [exact L|]. apply P; [lia | lia | reflexivity].
Defined.

(** X7: on the disc the glyph is composited over white: in both images of a
    successful run a pixel inside the ellipse is white where the glyph does
    not touch it and (107, 33, 168) where the glyph covers it fully. *)
Theorem disc_is_white_under_glyph env fs0 :
  outcome env fs0 = Ret tt ->
  (exists f,
     fs (final env fs0) !! path192 = Some (Encoded f) /\
     forall x y,
       0 <= x < 192 -> 0 <= y < 192 ->
       ellipse_mask env (64, 64, 128, 128) x y = true ->
       (text_mask env (font_used env 60) "T" "mm" (96, 96) x y = 0 ->
        getpixel (file_image f) (x, y) = Some (255, 255, 255)) /\
       (text_mask env (font_used env 60) "T" "mm" (96, 96) x y = 255 ->
        getpixel (file_image f) (x, y) = Some (107, 33, 168))) /\
  (exists f,
     fs (final env fs0) !! path512 = Some (Encoded f) /\
     forall x y,
       0 <= x < 512 -> 0 <= y < 512 ->
       ellipse_mask env (170, 170, 342, 342) x y = true ->
       (text_mask env (font_used env 160) "T" "mm" (256, 256) x y = 0 ->
        getpixel (file_image f) (x, y) = Some (255, 255, 255)) /\
       (text_mask env (font_used env 160) "T" "mm" (256, 256) x y = 255 ->
        getpixel (file_image f) (x, y) = Some (107, 33, 168))).
Proof.
  intros R. split.
  - exists (mkFile PNG (icon192 env)). split; [now apply lookup_192_ok|].
    intros x y Hx Hy E. cbn [file_image].
    rewrite getpixel_inside by assumption.
    rewrite px192, E. split; intros T; rewrite T; reflexivity.
  - exists (mkFile PNG (icon512 env)). split; [now apply lookup_512_ok|].
    intros x y Hx Hy E. cbn [file_image].
    rewrite getpixel_inside by assumption.
    rewrite px512, E. split; intros T; rewrite T; reflexivity.
Qed.

Lemma disc_is_white_under_glyph_witness :
  outcome desktop_env ∅ = Ret tt /\
  exists f,
    fs (final desktop_env ∅) !! path192 = Some (Encoded f) /\
    getpixel (file_image f) (80, 100) = Some (255, 255, 255).
Proof.
  split; [reflexivity|].
  destruct (disc_is_white_under_glyph desktop_env ∅ eq_refl)
    as ((f & L & P) & _).
  exists f. split; [exact L|].
  apply (P 80 100); [lia | lia | reflexivity | reflexivity].
Defined.

(** X8: a successful run allocates exactly two canvases and each output
    file is the PNG of its canvas as the canvas is when the run ends:
    nothing drawn for the second icon lands on the first. *)
Theorem files_are_final_canvases env fs0 :
  outcome env fs0 = Ret tt ->
  exists i1 i2,
    heap (final env fs0) = [i1; i2] /\
    fs (final env fs0) !! path192 = Some (Encoded (mkFile PNG i1)) /\
    fs (final env fs0) !! path512 = Some (Encoded (mkFile PNG i2)) /\
    im_size i1 = (192, 192) /\ im_size i2 = (512, 512).
Proof.
  intros R. exists (icon192 env), (icon512 env).
  split; [rewrite (final_ok env fs0 R); reflexivity|].
  split; [now apply lookup_192_ok|]. split; [now apply lookup_512_ok|].
  split; reflexivity.
Qed.

Lemma files_are_final_canvases_witness :
  outcome bare_env ∅ = Ret tt /\
  exists i1 i2,
    heap (final bare_env ∅) = [i1; i2] /\
    fs (final bare_env ∅) !! path192 = Some (Encoded (mkFile PNG i1)) /\
    fs (final bare_env ∅) !! path512 = Some (Encoded (mkFile PNG i2)).
Proof.
  split; [reflexivity|].
  destruct (files_are_final_canvases bare_env ∅ eq_refl)
    as (i1 & i2 & H & L1 & L2 & _).
  exists i1, i2. repeat split; assumption.
Defined.
